(** * The Resources page: scroll-spy navigation and icon fallback

    A shallow embedding of [src/app/(pages)/resources/page.tsx].

    The page has three pieces of behaviour: [ResourceItem] picks an icon
    with a fallback, [ResourceCard] renders a section, and [ResourceNav]
    keeps one navigation entry highlighted while the window scrolls.
    [ResourceNav] is a React component: its two [useState] cells, its
    [useRef] cell, the scroll listeners it has registered on [window] and
    the timeouts it has scheduled are threaded through the callbacks as an
    explicit [State]. *)

From Stdlib Require Import ZArith QArith Lia Sorted.
From stdpp Require Import base strings list gmap.

Local Open Scope Z_scope.

(** ** JavaScript values *)

(** A value that is a string or [null]/[undefined]: [None] is the nullish
    case. *)
Abbreviation js_string := (option string).

(** [!!v] for such a value: [null] and the empty string are falsy. *)
Definition truthy (v : js_string) : bool :=
  match v with
  | Some s => negb (String.eqb s "")
  | None => false
  end.

(** [a ?? b]. *)
Definition nullish_or {A} (a b : option A) : option A :=
  match a with
  | Some x => Some x
  | None => b
  end.

(** [a > b] and [a >= b] on numbers. [window.scrollY] is a double that
    may be fractional; it is modelled as a rational. *)
Definition Qgtb (a b : Q) : bool := negb (Qle_bool a b).
Definition Qgeb (a b : Q) : bool := Qle_bool b a.

(** ** The document *)

(** An element, with the attributes and layout the page reads.
    [offsetTop] is an integer number of pixels. *)
Record Element := mkElement {
  localName : string;
  id_attr : js_string;          (* getAttribute("id") *)
  data_section : js_string;     (* getAttribute("data-section") *)
  offsetTop : Z
}.

(** The elements of the document, in document order. *)
Abbreviation Document := (list Element).

(** [document.querySelectorAll("div[data-section]")]. *)
Definition matches_div_data_section (e : Element) : bool :=
  String.eqb (localName e) "div" && bool_decide (is_Some (data_section e)).

Definition querySelectorAll_div_data_section (doc : Document) : list Element :=
  List.filter matches_div_data_section doc.

(** [document.getElementById(id)]: the first element in document order
    whose id is [id]; an empty id attribute names nothing. *)
Definition has_id (id : string) (e : Element) : bool :=
  bool_decide (id_attr e = Some id) && negb (String.eqb id "").

Definition getElementById (doc : Document) (id : string) : option Element :=
  List.find (has_id id) doc.

(** ** ResourceCard *)

(** [ResourceCard] renders a [div] whose [id] and [data-section] are both
    the [id] prop; an omitted prop leaves both attributes out. Its place
    on the page is decided by layout. *)
Definition ResourceCard (id : js_string) (top : Z) : Element :=
  {| localName := "div"; id_attr := id; data_section := id; offsetTop := top |}.

(** ** ResourceItem *)

(** The names that an ordinary object inherits from [Object.prototype]. *)
Definition Object_prototype_members : list string :=
  [ "constructor"; "hasOwnProperty"; "isPrototypeOf"; "propertyIsEnumerable";
    "toLocaleString"; "toString"; "valueOf"; "__proto__";
    "__defineGetter__"; "__defineSetter__";
    "__lookupGetter__"; "__lookupSetter__" ]%string.

Definition inherited_from_Object_prototype (k : string) : bool :=
  existsb (String.eqb k) Object_prototype_members.

(** What a property lookup on [Icons] gives when it is not nullish: a
    component of the record, or the member of [Object.prototype] with
    the name looked up. *)
Inductive IconValue (IconComponent : Type) :=
| Component (c : IconComponent)
| Inherited (member : string).

Arguments Component {IconComponent} c.
Arguments Inherited {IconComponent} member.

Section ResourceItem.
(** [Icons] is imported from [@/components/icons]: a record of
    components indexed by name, whose entries are a parameter here. It
    is an ordinary object, so a lookup goes on to [Object.prototype] when
    the record has no entry of that name. *)
Context {IconComponent : Type}.
Variable Icons : gmap string IconComponent.

(** [Icons[k]]; [None] when the lookup is nullish. *)
Definition Icons_get (k : string) : option (IconValue IconComponent) :=
  match Icons !! k with
  | Some c => Some (Component c)
  | None =>
      if inherited_from_Object_prototype k then Some (Inherited k) else None
  end.

(** The [Icon] that [ResourceItem] renders for its [icon] prop
    ([None]: the prop is omitted, so the default ["globe"] applies). *)
Definition ResourceItem_Icon (icon : js_string)
    : option (IconValue IconComponent) :=
  let icon := default "globe"%string icon in
  nullish_or (Icons_get icon) (Icons_get "globe"%string).
End ResourceItem.

(** ** ResourceNav: state *)

Definition SCROLL_OFFSET : Z := 80.

(** A [handleScroll] closure. Each run of the effect creates a new one;
    it captures the [isManualScroll] of the render that created it. *)
Record Listener := mkListener {
  closure_id : nat;
  closure_isManualScroll : bool
}.

Inductive ScrollBehavior := smooth | instant | auto_behavior.

(** The argument of [window.scrollTo]. *)
Record ScrollToOptions := mkScrollTo {
  behavior : ScrollBehavior;
  top : Z
}.

(** A pending [setTimeout]: its callback is [setIsManualScroll(v)]. *)
Record Timer := mkTimer {
  timer_sets_isManualScroll : bool;
  timer_delay : Z
}.

Record State := mkState {
  (* useState *)
  activeId : js_string;
  isManualScroll : bool;
  (* useRef *)
  sectionsRef : option (list Element);
  (* useEffect bookkeeping: dependencies and cleanup of the last run *)
  effect_deps : option (js_string * bool);
  effect_cleanup : option Listener;
  next_closure : nat;
  (* window *)
  scroll_listeners : list Listener;
  timers : list Timer;
  scrollY : Q;
  scrollTo_calls : list ScrollToOptions
}.

Definition setActiveId (v : js_string) (st : State) : State :=
  mkState v (isManualScroll st) (sectionsRef st) (effect_deps st)
    (effect_cleanup st) (next_closure st) (scroll_listeners st) (timers st)
    (scrollY st) (scrollTo_calls st).

Definition setIsManualScroll (b : bool) (st : State) : State :=
  mkState (activeId st) b (sectionsRef st) (effect_deps st)
    (effect_cleanup st) (next_closure st) (scroll_listeners st) (timers st)
    (scrollY st) (scrollTo_calls st).

Definition set_sectionsRef (r : option (list Element)) (st : State) : State :=
  mkState (activeId st) (isManualScroll st) r (effect_deps st)
    (effect_cleanup st) (next_closure st) (scroll_listeners st) (timers st)
    (scrollY st) (scrollTo_calls st).

Definition set_effect (deps : option (js_string * bool))
    (cleanup : option Listener) (st : State) : State :=
  mkState (activeId st) (isManualScroll st) (sectionsRef st) deps
    cleanup (next_closure st) (scroll_listeners st) (timers st)
    (scrollY st) (scrollTo_calls st).

Definition set_next_closure (n : nat) (st : State) : State :=
  mkState (activeId st) (isManualScroll st) (sectionsRef st) (effect_deps st)
    (effect_cleanup st) n (scroll_listeners st) (timers st)
    (scrollY st) (scrollTo_calls st).

Definition set_scroll_listeners (ls : list Listener) (st : State) : State :=
  mkState (activeId st) (isManualScroll st) (sectionsRef st) (effect_deps st)
    (effect_cleanup st) (next_closure st) ls (timers st)
    (scrollY st) (scrollTo_calls st).

Definition set_timers (ts : list Timer) (st : State) : State :=
  mkState (activeId st) (isManualScroll st) (sectionsRef st) (effect_deps st)
    (effect_cleanup st) (next_closure st) (scroll_listeners st) ts
    (scrollY st) (scrollTo_calls st).

Definition set_scrollY (y : Q) (st : State) : State :=
  mkState (activeId st) (isManualScroll st) (sectionsRef st) (effect_deps st)
    (effect_cleanup st) (next_closure st) (scroll_listeners st) (timers st)
    y (scrollTo_calls st).

(** ** ResourceNav: the window *)

Definition same_listener (h h' : Listener) : bool :=
  Nat.eqb (closure_id h) (closure_id h').

(** [window.addEventListener("scroll", h)]: a listener that is already
    registered is not registered twice. *)
Definition addEventListener (h : Listener) (st : State) : State :=
  if existsb (same_listener h) (scroll_listeners st) then st
  else set_scroll_listeners (scroll_listeners st ++ [h]) st.

(** [window.removeEventListener("scroll", h)]. *)
Definition removeEventListener (h : Listener) (st : State) : State :=
  set_scroll_listeners
    (List.filter (fun h' => negb (same_listener h h')) (scroll_listeners st)) st.

(** [window.scrollTo(options)]: the request is recorded; the position
    changes later, announced by scroll events. *)
Definition window_scrollTo (o : ScrollToOptions) (st : State) : State :=
  mkState (activeId st) (isManualScroll st) (sectionsRef st) (effect_deps st)
    (effect_cleanup st) (next_closure st) (scroll_listeners st) (timers st)
    (scrollY st) (scrollTo_calls st ++ [o]).

(** [setTimeout(() => setIsManualScroll(v), delay)]. *)
Definition setTimeout (t : Timer) (st : State) : State :=
  set_timers (timers st ++ [t]) st.

(** The callback of a timeout. *)
Definition run_timer (t : Timer) (st : State) : State :=
  setIsManualScroll (timer_sets_isManualScroll t) st.

(** ** ResourceNav: the component *)

(** The navigation labels come from [@/app/labels]. *)
Record NavLabels := mkNavLabels {
  GET_INVOLVED : string;
  LEARN : string;
  BUILD : string;
  DESIGN : string
}.

(** React gives up on a chain of nested updates after this many. *)
Definition NESTED_UPDATE_LIMIT : nat := 50.

(** One rendered [li]. [onClick] is the click handler. *)
Record NavItem := mkNavItem {
  key : string;
  onClick : State -> State;
  data_id : string;
  active : bool;
  label : string
}.

Inductive Event :=
| Scroll (y : Q)      (* the window has scrolled to [y] *)
| Click (i : nat)     (* the user clicks the [i]-th navigation item *)
| TimerFired.         (* the oldest pending timeout runs *)

Section ResourceNav.
Variable doc : Document.
Variable LABELS : NavLabels.

(** An object literal with string keys: [Object.entries] lists them in
    the order they are written. *)
Definition ID_LABELS_MAPPING : list (string * string) :=
  [ ("get-involved", GET_INVOLVED LABELS);
    ("learn", LEARN LABELS);
    ("build", BUILD LABELS);
    ("design", DESIGN LABELS) ]%string.

(** The state of the first render, before any effect has run. *)
Definition initial : State :=
  {| activeId := Some ""%string;
     isManualScroll := false;
     sectionsRef := None;
     effect_deps := None;
     effect_cleanup := None;
     next_closure := 0%nat;
     scroll_listeners := [];
     timers := [];
     scrollY := 0%Q;
     scrollTo_calls := [] |}.

(** The body of [handleScroll], for the closure [h]. The calls of
    [setActiveId] made by one run are applied in order. *)
Definition handleScroll (h : Listener) (st : State) : State :=
  if closure_isManualScroll h then st
  else
    match sectionsRef st with
    | None => st
    | Some sections =>
        fold_left
          (fun st section =>
             let sectionTop := offsetTop section - SCROLL_OFFSET in
             if Qgeb (scrollY st) (inject_Z sectionTop) && Qgtb (scrollY st) 0
             then setActiveId (id_attr section) st
             else st)
          sections st
    end.

(** The function passed to [useEffect], run for the render whose state
    is [st]; the closure it registers is also what its cleanup removes. *)
Definition useEffect_body (st : State) : State :=
  let activeId_rendered := activeId st in
  let handleScroll :=
    {| closure_id := next_closure st;
       closure_isManualScroll := isManualScroll st |} in
  let st :=
    match sectionsRef st with
    | None => set_sectionsRef (Some (querySelectorAll_div_data_section doc)) st
    | Some _ => st
    end in
  let st :=
    if negb (truthy activeId_rendered)
    then setActiveId (Some "get-involved"%string) st
    else st in
  let st := set_next_closure (S (next_closure st)) st in
  let st := addEventListener handleScroll st in
  set_effect (effect_deps st) (Some handleScroll) st.

(** The function the effect returns. *)
Definition run_cleanup (st : State) : State :=
  match effect_cleanup st with
  | Some handleScroll => removeEventListener handleScroll st
  | None => st
  end.

(** The dependency array [[activeId, isManualScroll]]. *)
Definition deps (st : State) : js_string * bool :=
  (activeId st, isManualScroll st).

(** React commits a render whose dependencies differ from those of the
    last run of the effect: the old cleanup runs, then the effect. *)
Definition commit (st : State) : State :=
  let st := run_cleanup st in
  useEffect_body (set_effect (Some (deps st)) (effect_cleanup st) st).

(** Renders are committed until the effect has run for the current
    state. *)
Fixpoint flush (fuel : nat) (st : State) : State :=
  match fuel with
  | O => st
  | S fuel =>
      if decide (effect_deps st = Some (deps st)) then st
      else flush fuel (commit st)
  end.

(** [scrollToId], memoised by [useCallback] with no dependencies. *)
Definition scrollToId (id : string) (st : State) : State :=
  let element := getElementById doc id in
  let top := default 0 (offsetTop <$> element) in
  let st :=
    match element with
    | Some _ =>
        let st := setActiveId (Some id) st in
        let st := setIsManualScroll true st in
        window_scrollTo
          {| behavior := smooth;
             top := default 0 (Some top) - SCROLL_OFFSET |} st
    | None => st
    end in
  setTimeout {| timer_sets_isManualScroll := false; timer_delay := 800 |} st.

(** The list items of the navigation. *)
Definition render (st : State) : list NavItem :=
  map (fun '(id, label) =>
         let active := bool_decide (Some id = activeId st) in
         {| key := id;
            onClick := fun st => scrollToId id st;
            data_id := id;
            active := active;
            label := label |})
      ID_LABELS_MAPPING.

(** The component after its first render and effects. *)
Definition mount : State := flush NESTED_UPDATE_LIMIT initial.

(** A scroll event is delivered to every registered listener. *)
Definition dispatch_scroll (y : Q) (st : State) : State :=
  fold_left (fun st h => handleScroll h st) (scroll_listeners st)
    (set_scrollY y st).

Definition dispatch_click (i : nat) (st : State) : State :=
  match render st !! i with
  | Some item => onClick item st
  | None => st
  end.

(** The oldest pending timeout leaves the queue and its callback runs. *)
Definition dispatch_timer (st : State) : State :=
  match timers st with
  | t :: ts => run_timer t (set_timers ts st)
  | [] => st
  end.

(** One event: its handlers run, then React re-renders. *)
Definition step (st : State) (ev : Event) : State :=
  flush NESTED_UPDATE_LIMIT
    match ev with
    | Scroll y => dispatch_scroll y st
    | Click i => dispatch_click i st
    | TimerFired => dispatch_timer st
    end.

Inductive reachable : State -> Prop :=
| reachable_mount : reachable mount
| reachable_step st ev : reachable st -> reachable (step st ev).

(** The state after a list of events, from the mounted component. *)
Definition run (evs : list Event) : State := fold_left step evs mount.

(** *** Invariants *)

(** What holds between an event handler and the re-render after it:
    the component has at most the listener that its cleanup removes,
    that closure is older than the next one, the cached sections are
    those of the document, and every pending timeout is the one that
    [scrollToId] schedules. *)
Definition wf (st : State) : Prop :=
  scroll_listeners st =
    match effect_cleanup st with Some h => [h] | None => [] end
  /\ (forall h, effect_cleanup st = Some h ->
        (closure_id h < next_closure st)%nat)
  /\ (sectionsRef st = None \/
      sectionsRef st = Some (querySelectorAll_div_data_section doc))
  /\ Forall (fun t => t = mkTimer false 800) (timers st).

(** What holds once the effect has run for the current state. *)
Definition settled (st : State) : Prop :=
  effect_deps st = Some (deps st)
  /\ truthy (activeId st) = true
  /\ sectionsRef st = Some (querySelectorAll_div_data_section doc)
  /\ exists h, effect_cleanup st = Some h
            /\ closure_isManualScroll h = isManualScroll st.

Definition Inv (st : State) : Prop := wf st /\ settled st.

(** What an event handler leaves alone. *)
Definition frame (st st' : State) : Prop :=
  effect_deps st' = effect_deps st
  /\ effect_cleanup st' = effect_cleanup st
  /\ next_closure st' = next_closure st
  /\ scroll_listeners st' = scroll_listeners st
  /\ sectionsRef st' = sectionsRef st
  /\ Forall (fun t => t = mkTimer false 800) (timers st').

End ResourceNav.

(** The four ids of the navigation. *)
Definition NAV_IDS : list string :=
  [ "get-involved"; "learn"; "build"; "design" ]%string.

(** The section passes the test of [handleScroll] at scroll position [y]:
    its top, less the offset, is at or above [y]. *)
Definition scrolled_past (y : Q) (s : Element) : Prop :=
  (inject_Z (offsetTop s - SCROLL_OFFSET) <= y)%Q.

(** The test of [handleScroll] as the code computes it. *)
Definition section_hit (y : Q) (section : Element) : bool :=
  Qgeb y (inject_Z (offsetTop section - SCROLL_OFFSET)) && Qgtb y 0.

(** One navigation item is highlighted: the active id is one of the four
    ids, and one rendered item is active. *)
Definition one_item_highlighted (doc : Document) (LABELS : NavLabels)
    (st : State) : Prop :=
  (exists id, In id NAV_IDS /\ activeId st = Some id)
  /\ length (List.filter active (render doc LABELS st)) = 1%nat.

(** ** Example pages *)

Definition example_labels : NavLabels :=
  {| GET_INVOLVED := "Get involved"; LEARN := "Learn";
     BUILD := "Build"; DESIGN := "Design" |}.

(** A page with the four sections of the navigation and a paragraph. *)
Definition example_doc : Document :=
  [ ResourceCard (Some "get-involved"%string) 100;
    mkElement "p" None None 150;
    ResourceCard (Some "learn"%string) 600;
    ResourceCard (Some "build"%string) 1200;
    ResourceCard (Some "design"%string) 1800 ].

(** A page with a section that the navigation does not list. *)
Definition doc_with_faq : Document :=
  [ ResourceCard (Some "get-involved"%string) 100;
    ResourceCard (Some "faq"%string) 600 ].

(** A page whose last section has no id attribute. *)
Definition doc_with_anonymous : Document :=
  [ ResourceCard (Some "get-involved"%string) 100;
    ResourceCard (Some "learn"%string) 600;
    mkElement "div" None (Some "notes"%string) 1200 ].

Definition example_icons : gmap string nat :=
  {[ "globe"%string := 0%nat; "discord"%string := 1%nat ]}.

(** * Properties *)

(** ** Numbers and lists *)

Lemma Qgtb_true a b : Qgtb a b = true <-> (b < a)%Q.
Proof.
  unfold Qgtb. rewrite negb_true_iff.
  split.
  - intros H. apply Qnot_le_lt. intros Hle.
    apply Qle_bool_iff in Hle. congruence.
  - intros H. destruct (Qle_bool a b) eqn:E; [|done].
    apply Qle_bool_iff in E. exfalso. exact (Qlt_not_le _ _ H E).
Qed.

Lemma Qgeb_true a b : Qgeb a b = true <-> (b <= a)%Q.
Proof. unfold Qgeb. apply Qle_bool_iff. Qed.

Lemma same_listener_refl h : same_listener h h = true.
Proof. apply Nat.eqb_refl. Qed.

(** ** Property lookup *)

Lemma inherited_iff k :
  inherited_from_Object_prototype k = true <-> In k Object_prototype_members.
Proof.
  unfold inherited_from_Object_prototype. rewrite existsb_exists. split.
  - intros (x & Hin & Heq). apply String.eqb_eq in Heq. by subst.
  - intros Hin. exists k. split; [done|]. apply String.eqb_refl.
Qed.

Lemma not_inherited k :
  ~ In k Object_prototype_members -> inherited_from_Object_prototype k = false.
Proof.
  intros H. destruct (inherited_from_Object_prototype k) eqn:E; [|done].
  by apply inherited_iff in E.
Qed.

Lemma Icons_get_entry {IconComponent : Type}
    (Icons : gmap string IconComponent) k c :
  Icons !! k = Some c -> Icons_get Icons k = Some (Component c).
Proof. intros H. unfold Icons_get. by rewrite H. Qed.

Lemma Icons_get_nothing {IconComponent : Type}
    (Icons : gmap string IconComponent) k :
  Icons !! k = None -> ~ In k Object_prototype_members ->
  Icons_get Icons k = None.
Proof.
  intros H Hin. unfold Icons_get. by rewrite H, (not_inherited k Hin).
Qed.

(** ** The loop of handleScroll *)

Lemma section_hit_true y s :
  section_hit y s = true <-> scrolled_past y s /\ (0 < y)%Q.
Proof.
  unfold section_hit, scrolled_past.
  rewrite andb_true_iff, Qgeb_true, Qgtb_true. tauto.
Qed.

(** The loop keeps the last section that passes the test. *)
Lemma forEach_sections (sections : list Element) (st : State) :
  fold_left
    (fun st section =>
       let sectionTop := offsetTop section - SCROLL_OFFSET in
       if Qgeb (scrollY st) (inject_Z sectionTop) && Qgtb (scrollY st) 0
       then setActiveId (id_attr section) st
       else st)
    sections st
  = match last (List.filter (section_hit (scrollY st)) sections) with
    | Some s => setActiveId (id_attr s) st
    | None => st
    end.
Proof.
  induction sections as [|x l IH] using rev_ind; [done|].
  rewrite fold_left_app, IH, List.filter_app. cbn [fold_left List.filter].
  assert (Hy : forall o : option Element,
             scrollY (match o with
                      | Some s => setActiveId (id_attr s) st
                      | None => st end) = scrollY st)
    by (intros [?|]; done).
  rewrite Hy. fold (section_hit (scrollY st) x).
  destruct (section_hit (scrollY st) x).
  - rewrite last_snoc. by destruct (last _).
  - by rewrite app_nil_r.
Qed.

Lemma filter_hit_none y l :
  (forall s, In s l -> section_hit y s = false) ->
  List.filter (section_hit y) l = [].
Proof.
  induction l as [|a l IH]; [done|]. intros H. cbn.
  rewrite (H a) by (by left). apply IH. intros. apply H. by right.
Qed.

Lemma filter_hit_split y l1 s l2 :
  section_hit y s = true ->
  (forall s', In s' l2 -> section_hit y s' = false) ->
  last (List.filter (section_hit y) (l1 ++ s :: l2)) = Some s.
Proof.
  intros Hs Hl2. rewrite List.filter_app. cbn [List.filter].
  rewrite Hs, (filter_hit_none y l2 Hl2). apply last_snoc.
Qed.

(** ** Renders and effects *)

Section ResourceNavFacts.
Variable doc : Document.
Variable LABELS : NavLabels.

Local Abbreviation sections := (querySelectorAll_div_data_section doc).
Local Abbreviation wf := (wf doc).
Local Abbreviation settled := (settled doc).
Local Abbreviation Inv := (Inv doc).
Local Abbreviation commit := (commit doc).
Local Abbreviation flush := (flush doc).
Local Abbreviation step := (step doc LABELS).
Local Abbreviation reachable := (reachable doc LABELS).

Lemma flush_S n st :
  flush (S n) st =
    if decide (effect_deps st = Some (deps st)) then st
    else flush n (commit st).
Proof. reflexivity. Qed.

Lemma step_eq st ev :
  step st ev =
    flush NESTED_UPDATE_LIMIT
      match ev with
      | Scroll y => dispatch_scroll y st
      | Click i => dispatch_click doc LABELS i st
      | TimerFired => dispatch_timer st
      end.
Proof. reflexivity. Qed.

Lemma flush_settled n st :
  effect_deps st = Some (deps st) -> flush n st = st.
Proof. intros H. destruct n; [done|]. cbn. by rewrite decide_True. Qed.

Lemma commit_activeId st :
  activeId (commit st) =
    if truthy (activeId st) then activeId st else Some "get-involved"%string.
Proof.
  unfold commit, useEffect_body, run_cleanup, addEventListener.
  destruct st as [a m r d [c|] n ls ts y cs]; cbn;
    destruct r; cbn; destruct (truthy a); cbn;
    repeat (match goal with |- context [if ?b then _ else _] =>
              destruct b end; cbn); done.
Qed.

Lemma commit_untouched st :
  isManualScroll (commit st) = isManualScroll st
  /\ timers (commit st) = timers st
  /\ scrollY (commit st) = scrollY st
  /\ scrollTo_calls (commit st) = scrollTo_calls st
  /\ effect_deps (commit st) = Some (deps st).
Proof.
  unfold commit, useEffect_body, run_cleanup, addEventListener.
  destruct st as [a m r d [c|] n ls ts y cs]; cbn;
    destruct r; cbn; destruct (truthy a); cbn;
    repeat (match goal with |- context [if ?b then _ else _] =>
              destruct b end; cbn); done.
Qed.

Lemma commit_truthy st : truthy (activeId (commit st)) = true.
Proof. rewrite commit_activeId. by destruct (truthy (activeId st)) eqn:E. Qed.

Lemma run_cleanup_eq st :
  scroll_listeners st =
    match effect_cleanup st with Some h => [h] | None => [] end ->
  run_cleanup st = set_scroll_listeners [] st.
Proof.
  destruct st as [a m r d [c|] n ls ts y cs]; cbn; intros ->; [|done].
  unfold run_cleanup, removeEventListener; cbn.
  by rewrite same_listener_refl.
Qed.

(** The state after one commit, when the only listener is the one the
    cleanup removes. *)
Lemma commit_eq st :
  scroll_listeners st =
    match effect_cleanup st with Some h => [h] | None => [] end ->
  commit st =
    let h := mkListener (next_closure st) (isManualScroll st) in
    mkState
      (if truthy (activeId st) then activeId st
       else Some "get-involved"%string)
      (isManualScroll st)
      (Some (default sections (sectionsRef st)))
      (Some (deps st)) (Some h) (S (next_closure st)) [h]
      (timers st) (scrollY st) (scrollTo_calls st).
Proof.
  intros Hl. unfold commit. rewrite (run_cleanup_eq _ Hl).
  destruct st as [a m r d c n ls ts y cs].
  destruct r; destruct (truthy a) eqn:Ha;
    lazy -[truthy querySelectorAll_div_data_section];
    rewrite Ha; reflexivity.
Qed.

Lemma commit_wf st : wf st -> wf (commit st).
Proof.
  intros (Hl & Hid & Hr & Ht). rewrite (commit_eq _ Hl). cbn.
  repeat split; cbn; try done.
  - intros h [= <-]. cbn. lia.
  - right. by destruct Hr as [-> | ->].
Qed.

Lemma commit_settled st :
  wf st -> truthy (activeId st) = true -> settled (commit st).
Proof.
  intros (Hl & Hid & Hr & Ht) Ha. rewrite (commit_eq _ Hl). cbn.
  rewrite Ha. repeat split; cbn; try done.
  - by destruct Hr as [-> | ->].
  - by eexists.
Qed.

Lemma flush_Inv n st :
  wf st -> (effect_deps st = Some (deps st) -> settled st) ->
  Inv (flush (S (S n)) st).
Proof.
  intros Hwf Hs. rewrite flush_S.
  destruct (decide (effect_deps st = Some (deps st))) as [E|E].
  { split; [done|auto]. }
  destruct (commit_untouched st) as (Hm & _ & _ & _ & Hd).
  rewrite flush_S.
  destruct (decide (effect_deps (commit st) = Some (deps (commit st))))
    as [E1|E1].
  - split; [by apply commit_wf|]. apply commit_settled; [done|].
    destruct (truthy (activeId st)) eqn:Ha; [done|].
    rewrite Hd in E1. unfold deps in E1.
    rewrite commit_activeId, Ha in E1.
    injection E1 as E1 _. rewrite E1 in Ha. done.
  - assert (Inv (commit (commit st))) as HI.
    { split; [by do 2 apply commit_wf|].
      apply commit_settled; [by apply commit_wf|apply commit_truthy]. }
    rewrite flush_settled; [done|]. apply HI.
Qed.

Lemma flush_untouched n st :
  isManualScroll (flush n st) = isManualScroll st
  /\ timers (flush n st) = timers st
  /\ scrollY (flush n st) = scrollY st
  /\ scrollTo_calls (flush n st) = scrollTo_calls st.
Proof.
  revert st. induction n as [|n IH]; intros st; [done|]. cbn.
  destruct (decide _); [done|].
  destruct (IH (commit st)) as (-> & -> & -> & ->).
  destruct (commit_untouched st) as (-> & -> & -> & -> & _). done.
Qed.

Lemma flush_activeId n st :
  truthy (activeId st) = true -> activeId (flush n st) = activeId st.
Proof.
  revert st. induction n as [|n IH]; intros st Ha; [done|]. cbn.
  destruct (decide _); [done|].
  rewrite IH by apply commit_truthy.
  by rewrite commit_activeId, Ha.
Qed.

Lemma frame_Inv n st st' :
  Inv st -> frame st st' -> Inv (flush (S (S n)) st').
Proof.
  intros [(Hl & Hid & Hr & Ht) (Hd & Ha & Hsec & h & Hc & Hm)]
         (Fd & Fc & Fn & Fl & Fs & Ft).
  apply flush_Inv.
  - repeat split.
    + by rewrite Fl, Fc.
    + intros h'. rewrite Fc, Fn. apply Hid.
    + rewrite Fs. by right.
    + done.
  - intros E. rewrite Fd, Hd in E. injection E as Ea Em.
    repeat split.
    + rewrite Fd, Hd. unfold deps. by rewrite Ea, Em.
    + by rewrite <- Ea.
    + by rewrite Fs.
    + exists h. rewrite Fc, <- Em. done.
Qed.

(** *** Event handlers *)

Lemma handleScroll_eq h st :
  handleScroll h st =
    if closure_isManualScroll h then st
    else match sectionsRef st with
         | None => st
         | Some l =>
             match last (List.filter (section_hit (scrollY st)) l) with
             | Some s => setActiveId (id_attr s) st
             | None => st
             end
         end.
Proof.
  unfold handleScroll. destruct (closure_isManualScroll h); [done|].
  destruct (sectionsRef st); [|done]. apply forEach_sections.
Qed.

(** In a settled state the event reaches one closure, which has the
    current [isManualScroll]. *)
Lemma dispatch_scroll_eq y st :
  Inv st ->
  dispatch_scroll y st =
    if isManualScroll st then set_scrollY y st
    else match last (List.filter (section_hit y) sections) with
         | Some s => setActiveId (id_attr s) (set_scrollY y st)
         | None => set_scrollY y st
         end.
Proof.
  intros [(Hl & _) (_ & _ & Hsec & h & Hc & Hm)].
  unfold dispatch_scroll. rewrite Hl, Hc. cbn [fold_left].
  rewrite handleScroll_eq, Hm. cbn. by rewrite Hsec.
Qed.

Lemma frame_setActiveId v st st' :
  frame st st' -> frame st (setActiveId v st').
Proof. by intros (? & ? & ? & ? & ? & ?). Qed.

Lemma frame_refl st :
  Forall (fun t => t = mkTimer false 800) (timers st) -> frame st st.
Proof. by intros ?. Qed.

Lemma dispatch_scroll_frame y st : Inv st -> frame st (dispatch_scroll y st).
Proof.
  intros HI. rewrite dispatch_scroll_eq by done.
  assert (frame st (set_scrollY y st)) as Hf.
  { apply (frame_refl (set_scrollY y st)), HI. }
  destruct (isManualScroll st); [done|].
  destruct (last _); [by apply frame_setActiveId|done].
Qed.

Lemma scrollToId_frame id st : Inv st -> frame st (scrollToId doc id st).
Proof.
  intros [(_ & _ & _ & Ht) _]. unfold scrollToId.
  destruct (getElementById doc id); cbn;
    repeat split; try done;
    (apply Forall_app; split; [done|by constructor]).
Qed.

Lemma render_lookup st i item :
  render doc LABELS st !! i = Some item ->
  In (data_id item) NAV_IDS
  /\ key item = data_id item
  /\ active item = bool_decide (Some (data_id item) = activeId st)
  /\ onClick item = scrollToId doc (data_id item).
Proof.
  unfold render, ID_LABELS_MAPPING, NAV_IDS.
  do 4 (destruct i as [|i]; [intros [= <-]; cbn; tauto|]).
  by destruct i.
Qed.

Lemma dispatch_click_frame i st :
  Inv st -> frame st (dispatch_click doc LABELS i st).
Proof.
  intros HI. unfold dispatch_click.
  destruct (render doc LABELS st !! i) as [item|] eqn:E.
  - apply render_lookup in E as (_ & _ & _ & ->). by apply scrollToId_frame.
  - apply frame_refl, HI.
Qed.

Lemma dispatch_timer_frame st : Inv st -> frame st (dispatch_timer st).
Proof.
  intros [(_ & _ & _ & Ht) _]. unfold dispatch_timer.
  destruct (timers st) as [|t ts] eqn:E; [by apply frame_refl; rewrite E|].
  repeat split; try done. cbn. by inversion Ht.
Qed.

Lemma mount_eq :
  mount doc =
    let h := mkListener 1 false in
    mkState (Some "get-involved"%string) false (Some sections)
      (Some (Some "get-involved"%string, false)) (Some h) 2 [h] [] 0%Q [].
Proof. reflexivity. Qed.

Lemma mount_Inv : Inv (mount doc).
Proof.
  rewrite mount_eq. repeat split; cbn; try done.
  - intros h [= <-]. cbn. lia.
  - by right.
  - by eexists.
Qed.

Lemma reachable_Inv st : reachable st -> Inv st.
Proof.
  induction 1 as [|st ev _ IH]; [apply mount_Inv|].
  rewrite step_eq. unfold NESTED_UPDATE_LIMIT.
  apply (frame_Inv 48 st); [done|].
  destruct ev.
  - by apply dispatch_scroll_frame.
  - by apply dispatch_click_frame.
  - by apply dispatch_timer_frame.
Qed.

Lemma getElementById_Some id e :
  getElementById doc id = Some e ->
  In e doc /\ id_attr e = Some id /\ id <> ""%string.
Proof.
  intros H. apply find_some in H as [Hin H]. unfold has_id in H.
  apply andb_true_iff in H as [H1 H2].
  apply bool_decide_eq_true in H1. apply negb_true_iff in H2.
  repeat split; [done|done|]. intros ->. done.
Qed.

Lemma truthy_Some id : id <> ""%string -> truthy (Some id) = true.
Proof.
  intros H. cbn. apply negb_true_iff. by apply String.eqb_neq.
Qed.

Lemma scrollToId_found id e st :
  getElementById doc id = Some e ->
  scrollToId doc id st =
    mkState (Some id) true (sectionsRef st) (effect_deps st)
      (effect_cleanup st) (next_closure st) (scroll_listeners st)
      (timers st ++ [mkTimer false 800]) (scrollY st)
      (scrollTo_calls st ++ [mkScrollTo smooth (offsetTop e - SCROLL_OFFSET)]).
Proof. intros H. unfold scrollToId. by rewrite H. Qed.

Lemma scrollToId_missing id st :
  getElementById doc id = None ->
  scrollToId doc id st = setTimeout (mkTimer false 800) st.
Proof. intros H. unfold scrollToId. by rewrite H. Qed.

(** Running the effect in a state whose closures are all older than the
    next one adds one listener, and the cleanup removes it again. *)
Lemma useEffect_body_listeners st :
  (forall h, In h (scroll_listeners st) ->
             (closure_id h < next_closure st)%nat) ->
  let st' := useEffect_body doc st in
  let h := mkListener (next_closure st) (isManualScroll st) in
  effect_cleanup st' = Some h
  /\ scroll_listeners st' = scroll_listeners st ++ [h]
  /\ scroll_listeners (run_cleanup st') = scroll_listeners st.
Proof.
  destruct st as [a m r d c n ls ts y cs].
  cbn [scroll_listeners next_closure isManualScroll]. intros Hfresh.
  set (h := mkListener n m).
  assert (forall h', In h' ls -> same_listener h h' = false) as Hne.
  { intros h' Hh. apply Hfresh in Hh. unfold same_listener, h.
    cbn [closure_id]. apply Nat.eqb_neq. lia. }
  assert (existsb (same_listener h) ls = false) as Hex.
  { destruct (existsb _ _) eqn:E; [|done].
    apply existsb_exists in E as (h' & Hin & Eh).
    by rewrite Hne in Eh. }
  assert (List.filter (fun h' => negb (same_listener h h')) (ls ++ [h])
          = ls) as Hfil.
  { rewrite List.filter_app. cbn [List.filter].
    rewrite same_listener_refl. cbn [negb]. rewrite app_nil_r.
    clear Hex Hfresh. induction ls as [|x l IH]; [done|].
    cbn [List.filter]. rewrite (Hne x) by (by left). cbn [negb].
    f_equal. apply IH. intros. apply Hne. by right. }
  subst h.
  unfold useEffect_body. cbn [activeId]. 
  destruct r; destruct (truthy a) eqn:Ha; cbn [negb];
    lazy -[querySelectorAll_div_data_section existsb same_listener
           List.filter app negb];
    rewrite Hex; lazy iota beta; rewrite Hfil; done.
Qed.

Lemma nav_id_truthy id : In id NAV_IDS -> truthy (Some id) = true.
Proof. unfold NAV_IDS. cbn. intros [<-|[<-|[<-|[<-|[]]]]]; done. Qed.

(** With the active id among the four ids, one item is rendered active. *)
Lemma render_one_active id st :
  In id NAV_IDS -> activeId st = Some id ->
  length (List.filter active (render doc LABELS st)) = 1%nat.
Proof.
  unfold NAV_IDS, render, ID_LABELS_MAPPING. cbn.
  intros [<-|[<-|[<-|[<-|[]]]]] ->; reflexivity.
Qed.

Lemma scrollToId_isManualScroll id st :
  isManualScroll (scrollToId doc id st) =
    match getElementById doc id with
    | Some _ => true
    | None => isManualScroll st
    end.
Proof. unfold scrollToId. by destruct (getElementById doc id). Qed.

Lemma reachable_run evs : reachable (run doc LABELS evs).
Proof.
  unfold run. induction evs as [|ev evs IH] using rev_ind.
  - constructor.
  - rewrite fold_left_app. by constructor.
Qed.

End ResourceNavFacts.

(** ** The scroll-spy navigation *)

Section ScrollSpy.
Variable doc : Document.
Variable LABELS : NavLabels.

#[local] Arguments flush _ _ _ : simpl never.

Local Abbreviation sections := (querySelectorAll_div_data_section doc).
Local Abbreviation reachable := (reachable doc LABELS).
Local Abbreviation step := (step doc LABELS).
Local Abbreviation render := (render doc LABELS).
Local Abbreviation scrollToId := (scrollToId doc).

(** C1. On a scroll event with manual-scroll mode off, [handleScroll]
    sets the active id to the id attribute of the last
    [div[data-section]] element, in document order, whose [offsetTop]
    less 80 is at most [window.scrollY], provided [window.scrollY] is
    positive; the re-render keeps that id when it is a non-empty string.
    When [window.scrollY] is 0, or no section passes the test, the
    active id is left as it was. *)
Theorem handleScroll_selects_last_section_passed st y :
  reachable st -> isManualScroll st = false ->
  (forall l1 s l2,
      (0 < y)%Q ->
      sections = l1 ++ s :: l2 ->
      scrolled_past y s ->
      (forall s', In s' l2 -> ~ scrolled_past y s') ->
      activeId (dispatch_scroll y st) = id_attr s
      /\ (truthy (id_attr s) = true ->
          activeId (step st (Scroll y)) = id_attr s))
  /\ ((y == 0)%Q \/ (forall s, In s sections -> ~ scrolled_past y s) ->
      activeId (dispatch_scroll y st) = activeId st
      /\ activeId (step st (Scroll y)) = activeId st).
Proof.
  intros Hr Hm. apply reachable_Inv in Hr as HI.
  rewrite step_eq, (dispatch_scroll_eq doc y st HI), Hm. split.
  - intros l1 s l2 Hy Hsec Hs Hl2.
    rewrite Hsec, filter_hit_split; cbn.
    + split; [done|]. intros Ht. by rewrite flush_activeId.
    + by apply section_hit_true.
    + intros s' Hs'. destruct (section_hit y s') eqn:E; [|done].
      apply section_hit_true in E as [E _]. by apply Hl2 in E.
  - intros Hnone.
    rewrite filter_hit_none; cbn.
    + split; [done|]. rewrite flush_settled; [done|]. apply HI.
    + intros s Hs. destruct (section_hit y s) eqn:E; [|done].
      apply section_hit_true in E as [E Hy].
      destruct Hnone as [H0|Hn]; [|by apply Hn in E].
      rewrite H0 in Hy. by apply Qlt_irrefl in Hy.
Qed.

(** C2. After [scrollToId] for an id whose element exists,
    [isManualScroll] is true and a timeout of 800 ms is pending; so it is
    once a click on such a navigation item has been rendered. While
    [isManualScroll] is true, a scroll event only records the position:
    [handleScroll] returns without setting state, so the active id stays;
    and neither a scroll event nor a click resets [isManualScroll]. A
    timeout that fires sets [isManualScroll] to false. *)
Theorem manual_scroll_ignores_scroll_events st :
  reachable st ->
  (forall id e,
      getElementById doc id = Some e ->
      isManualScroll (scrollToId id st) = true
      /\ timers (scrollToId id st) = timers st ++ [mkTimer false 800])
  /\ (forall i item e,
      render st !! i = Some item ->
      getElementById doc (data_id item) = Some e ->
      isManualScroll (step st (Click i)) = true
      /\ timers (step st (Click i)) = timers st ++ [mkTimer false 800])
  /\ (isManualScroll st = true ->
      forall y,
        dispatch_scroll y st = set_scrollY y st
        /\ activeId (step st (Scroll y)) = activeId st
        /\ isManualScroll (step st (Scroll y)) = true)
  /\ (isManualScroll st = true ->
      forall i, isManualScroll (step st (Click i)) = true)
  /\ (forall t ts,
      timers st = t :: ts ->
      timer_delay t = 800
      /\ isManualScroll (step st TimerFired) = false).
Proof.
  intros Hr. apply reachable_Inv in Hr as HI.
  assert (forall s, isManualScroll (flush doc NESTED_UPDATE_LIMIT s)
                    = isManualScroll s) as Hflush
    by (intros s; apply flush_untouched).
  split; [|split; [|split; [|split]]].
  - intros id e He. by rewrite (scrollToId_found doc _ e).
  - intros i item e Hi He. rewrite step_eq, Hflush.
    unfold dispatch_click. rewrite Hi.
    destruct (flush_untouched doc NESTED_UPDATE_LIMIT (onClick item st))
      as (_ & -> & _).
    apply render_lookup in Hi as (_ & _ & _ & ->).
    by rewrite (scrollToId_found doc _ e).
  - intros Hm y. rewrite step_eq, Hflush.
    rewrite (dispatch_scroll_eq doc _ _ HI), Hm.
    split; [done|]. split; [|done].
    rewrite flush_settled; [done|]. apply HI.
  - intros Hm i. rewrite step_eq, Hflush. unfold dispatch_click.
    destruct (render st !! i) as [item|] eqn:E; [|done].
    apply render_lookup in E as (_ & _ & _ & ->).
    rewrite scrollToId_isManualScroll. by destruct (getElementById _ _).
  - intros t ts Ht. rewrite step_eq, Hflush. unfold dispatch_timer.
    rewrite Ht. destruct HI as [(_ & _ & _ & HF) _]. rewrite Ht in HF.
    by inversion HF; subst.
Qed.

(** C3. [scrollToId], for an id that names an element of the document,
    sets the active id to that id and asks the window to scroll, with
    smooth behaviour, to the element's [offsetTop] less 80. A click on a
    navigation item whose id names an element does exactly this, and the
    active id is that id once the click has been rendered. *)
Theorem scrollToId_activates_and_scrolls st :
  (forall id e,
      getElementById doc id = Some e ->
      activeId (scrollToId id st) = Some id
      /\ scrollTo_calls (scrollToId id st) =
           scrollTo_calls st
             ++ [ {| behavior := smooth; top := offsetTop e - 80 |} ])
  /\ (forall i item e,
      render st !! i = Some item ->
      getElementById doc (data_id item) = Some e ->
      dispatch_click doc LABELS i st = scrollToId (data_id item) st
      /\ activeId (step st (Click i)) = Some (data_id item)
      /\ scrollTo_calls (step st (Click i)) =
           scrollTo_calls st
             ++ [ {| behavior := smooth; top := offsetTop e - 80 |} ]).
Proof.
  split.
  - intros id e He. by rewrite (scrollToId_found doc _ e).
  - intros i item e Hi He. rewrite step_eq. unfold dispatch_click.
    rewrite Hi.
    destruct (flush_untouched doc NESTED_UPDATE_LIMIT (onClick item st))
      as (_ & _ & _ & ->).
    apply render_lookup in Hi as (_ & _ & _ & ->).
    split; [done|].
    rewrite flush_activeId; rewrite (scrollToId_found doc _ e) by done.
    + done.
    + apply truthy_Some. by apply getElementById_Some in He as (_ & _ & ?).
Qed.

(** C4. Whatever the state, the navigation renders four items, keyed
    and identified by get-involved, learn, build and design in this
    order, which are the keys of [ID_LABELS_MAPPING] with its labels;
    the click handler of an item calls [scrollToId] with the id of that
    item. *)
Theorem nav_renders_four_fixed_items st :
  length (render st) = 4%nat
  /\ map key (render st) = NAV_IDS
  /\ map data_id (render st) = NAV_IDS
  /\ map (fun item => (data_id item, label item)) (render st)
     = ID_LABELS_MAPPING LABELS
  /\ Forall (fun item => forall st',
               onClick item st' = scrollToId (data_id item) st')
       (render st).
Proof.
  repeat split. repeat constructor.
Qed.

(** C6. In every state of the mounted component, [window] has one
    scroll listener, the closure that the cleanup of the last effect
    removes; the cleanup leaves none, and a re-run of the effect leaves
    one. A run of the effect body registers one new listener, and the
    cleanup it returns removes that listener and no other. *)
Theorem effect_keeps_one_scroll_listener st :
  reachable st ->
  (exists h, scroll_listeners st = [h] /\ effect_cleanup st = Some h)
  /\ scroll_listeners (run_cleanup st) = []
  /\ length (scroll_listeners (commit doc st)) = 1%nat
  /\ (let st' := useEffect_body doc st in
      exists h, effect_cleanup st' = Some h
                /\ scroll_listeners st' = scroll_listeners st ++ [h]
                /\ scroll_listeners (run_cleanup st')
                   = scroll_listeners st).
Proof.
  intros Hr. apply reachable_Inv in Hr as [(Hl & Hid & Hsr & Ht) Hs].
  destruct Hs as (_ & _ & _ & h & Hc & _).
  rewrite Hc in Hl.
  split; [by exists h|].
  split; [by rewrite run_cleanup_eq by (by rewrite Hc)|].
  split; [by rewrite (commit_eq doc) by (by rewrite Hc)|].
  eexists. apply useEffect_body_listeners.
  intros h'. rewrite Hl. intros [<-|[]]. by apply Hid.
Qed.

(** C7. When the effect runs with the active id equal to the empty
    string, it sets the active id to get-involved. The first render has
    the empty string, so the mounted component has get-involved as its
    active id and the first navigation item, and no other, is rendered
    active. *)
Theorem effect_defaults_to_get_involved :
  (forall st, activeId st = Some ""%string ->
              activeId (useEffect_body doc st) = Some "get-involved"%string)
  /\ activeId initial = Some ""%string
  /\ activeId (mount doc) = Some "get-involved"%string
  /\ map active (render (mount doc)) = [true; false; false; false].
Proof.
  split; [|done].
  intros st Ha. destruct st as [a m r d c n ls ts y cs]. cbn in Ha.
  subst a. unfold useEffect_body. cbn [activeId truthy String.eqb negb].
  unfold set_effect, addEventListener. cbn [activeId].
  by destruct r; destruct (existsb _ _).
Qed.

(** C9. [scrollToId], for an id that names no element of the document,
    changes neither the active id, nor [isManualScroll], nor the scroll
    position, and makes no scroll request: all it does is schedule the
    timeout of 800 ms, whose callback sets [isManualScroll] to false in
    whatever state it runs. A click on a navigation item without its
    element leaves the mounted component as it was, but for that
    timeout. *)
Theorem scrollToId_missing_target st id :
  getElementById doc id = None ->
  let t := {| timer_sets_isManualScroll := false; timer_delay := 800 |} in
  activeId (scrollToId id st) = activeId st
  /\ isManualScroll (scrollToId id st) = isManualScroll st
  /\ scrollTo_calls (scrollToId id st) = scrollTo_calls st
  /\ scrollY (scrollToId id st) = scrollY st
  /\ scrollToId id st = setTimeout t st
  /\ timers (scrollToId id st) = timers st ++ [t]
  /\ (forall st', isManualScroll (run_timer t st') = false)
  /\ (reachable st ->
      forall i item, render st !! i = Some item -> data_id item = id ->
                     step st (Click i) = setTimeout t st).
Proof.
  intros H t. rewrite scrollToId_missing by done.
  do 7 (split; [done|]).
  intros Hr i item Hi <-. apply reachable_Inv in Hr as [_ (Hd & _)].
  rewrite step_eq. unfold dispatch_click. rewrite Hi.
  apply render_lookup in Hi as (_ & _ & _ & ->).
  rewrite scrollToId_missing by done. by apply flush_settled.
Qed.

(** C5, as amended. Provided every [div[data-section]] element of the
    document carries one of the four ids get-involved, learn, build and
    design as its id attribute, the active id is one of these four in
    every state of the mounted component, and one navigation item is
    rendered active. *)
Theorem one_nav_item_highlighted :
  Forall (fun s => exists id, In id NAV_IDS /\ id_attr s = Some id)
         sections ->
  forall st, reachable st -> one_item_highlighted doc LABELS st.
Proof.
  intros Hsec st Hr.
  assert (exists id, In id NAV_IDS /\ activeId st = Some id) as Hnav.
  { induction Hr as [|st ev Hr (id & Hin & Ha)].
    - exists "get-involved"%string. split; [|done]. by left.
    - apply reachable_Inv in Hr as HI. rewrite step_eq.
      assert (forall s, (exists id', In id' NAV_IDS /\ activeId s = Some id')
                -> exists id', In id' NAV_IDS /\
                     activeId (flush doc NESTED_UPDATE_LIMIT s) = Some id')
        as Hflush.
      { intros s (id' & Hin' & Ha'). exists id'. split; [done|].
        rewrite flush_activeId; [done|]. rewrite Ha'.
        by apply nav_id_truthy. }
      apply Hflush. destruct ev as [y|i|].
      + rewrite (dispatch_scroll_eq doc _ _ HI).
        destruct (isManualScroll st); [by exists id|].
        destruct (last _) as [s|] eqn:El; [|by exists id].
        apply last_Some_elem_of, list_elem_of_In, filter_In in El as [El _].
        rewrite Forall_forall in Hsec. apply Hsec.
        by apply list_elem_of_In.
      + unfold dispatch_click.
        destruct (render st !! i) as [item|] eqn:E; [|by exists id].
        apply render_lookup in E as (Hitem & _ & _ & ->).
        unfold scrollToId.
        destruct (getElementById doc (data_id item)); [|by exists id].
        by exists (data_id item).
      + unfold dispatch_timer. destruct (timers st); by exists id. }
  split; [done|]. destruct Hnav as (id & Hin & Ha).
  by apply (render_one_active doc LABELS id).
Qed.

End ScrollSpy.

(** C5, as stated, fails on a page with a section that the navigation
    does not list: scrolling past that section makes its id the active
    id, and no navigation item is rendered active. *)
Lemma active_id_outside_navigation :
  let st := run doc_with_faq example_labels [Scroll 700] in
  reachable doc_with_faq example_labels st
  /\ activeId st = Some "faq"%string
  /\ List.filter active (render doc_with_faq example_labels st) = []
  /\ ~ one_item_highlighted doc_with_faq example_labels st.
Proof.
  split; [apply reachable_run|]. split; [by vm_compute|].
  split; [by vm_compute|].
  intros [_ H]. vm_compute in H. discriminate.
Qed.

(** ** The icon of a resource item *)

(** C8, as amended. When the [icon] prop is omitted, or names neither
    an entry of [Icons] nor a member that [Icons] inherits from
    [Object.prototype], the icon rendered is [Icons.globe]; when it names
    an entry, that entry is rendered. *)
Theorem ResourceItem_icon_fallback {IconComponent : Type}
    (Icons : gmap string IconComponent) (icon : js_string) :
  (icon = None
   \/ (exists k, icon = Some k /\ Icons !! k = None
                 /\ ~ In k Object_prototype_members) ->
   ResourceItem_Icon Icons icon = Icons_get Icons "globe"%string)
  /\ (forall k c, icon = Some k -> Icons !! k = Some c ->
      ResourceItem_Icon Icons icon = Some (Component c)).
Proof.
  unfold ResourceItem_Icon. split.
  - intros [-> | (k & -> & Hk & Hin)]; cbn [from_option id].
    + by destruct (Icons_get Icons "globe"%string).
    + by rewrite (Icons_get_nothing Icons k Hk Hin).
  - intros k c -> Hk. cbn [from_option id]. by rewrite (Icons_get_entry Icons k c Hk).
Qed.

(** C8, as stated, fails for a name that is no entry of [Icons] but is a
    member of [Object.prototype]: the lookup finds that member, it is not
    nullish, and the globe is not rendered. *)
Lemma inherited_name_is_not_globe :
  example_icons !! "constructor"%string = None
  /\ ResourceItem_Icon example_icons (Some "constructor"%string)
     = Some (Inherited "constructor"%string)
  /\ Icons_get example_icons "globe"%string = Some (Component 0%nat)
  /\ ResourceItem_Icon example_icons (Some "constructor"%string)
     <> Icons_get example_icons "globe"%string.
Proof.
  split; [by vm_compute|]. split; [by vm_compute|]. split; [by vm_compute|].
  vm_compute. discriminate.
Qed.

(** ** The properties on the example page *)

(** Scrolling the example page to 700 passes the first two sections: the
    second one, learn, becomes active. *)
Lemma handleScroll_selects_last_section_passed_witness :
  let st := mount example_doc in
  reachable example_doc example_labels st
  /\ isManualScroll st = false
  /\ activeId (dispatch_scroll 700 st) = Some "learn"%string
  /\ activeId (step example_doc example_labels st (Scroll 700))
     = Some "learn"%string.
Proof.
  cbv zeta. split; [constructor|]. split; [reflexivity|].
  destruct (handleScroll_selects_last_section_passed
              example_doc example_labels (mount example_doc) 700%Q
              (reachable_mount _ _) eq_refl) as [H _].
  destruct (H [ResourceCard (Some "get-involved"%string) 100]
              (ResourceCard (Some "learn"%string) 600)
              [ResourceCard (Some "build"%string) 1200;
               ResourceCard (Some "design"%string) 1800]) as [Ha Hb].
  - reflexivity.
  - reflexivity.
  - unfold scrolled_past, Qle, SCROLL_OFFSET. cbn. lia.
  - intros s' [<-|[<-|[]]]; unfold scrolled_past, Qle, SCROLL_OFFSET;
      cbn; lia.
  - split; [exact Ha|exact (Hb eq_refl)].
Defined.

(** After a click on build, scroll events are ignored until the timeout
    fires. *)
Lemma manual_scroll_ignores_scroll_events_witness :
  let st := run example_doc example_labels [Click 2] in
  reachable example_doc example_labels st
  /\ isManualScroll st = true
  /\ activeId (step example_doc example_labels st (Scroll 700)) = activeId st
  /\ isManualScroll (step example_doc example_labels st (Scroll 700)) = true
  /\ isManualScroll (step example_doc example_labels st TimerFired) = false.
Proof.
  cbv zeta.
  assert (reachable example_doc example_labels
            (run example_doc example_labels [Click 2])) as Hr
    by apply reachable_run.
  split; [exact Hr|]. split; [vm_compute; reflexivity|].
  destruct (manual_scroll_ignores_scroll_events
              example_doc example_labels _ Hr) as (_ & _ & Hs & _ & Ht).
  destruct (Hs ltac:(vm_compute; reflexivity) 700%Q) as (_ & Ha & Hm).
  split; [exact Ha|]. split; [exact Hm|].
  apply (Ht (mkTimer false 800) []). vm_compute. reflexivity.
Defined.

(** A click on build, whose section is at 1200, scrolls to 1120. *)
Lemma scrollToId_activates_and_scrolls_witness :
  let st := mount example_doc in
  getElementById example_doc "build"
    = Some (ResourceCard (Some "build"%string) 1200)
  /\ activeId (scrollToId example_doc "build" st) = Some "build"%string
  /\ scrollTo_calls (scrollToId example_doc "build" st)
     = [ {| behavior := smooth; top := 1120 |} ].
Proof.
  cbv zeta. split; [reflexivity|].
  destruct (scrollToId_activates_and_scrolls
              example_doc example_labels (mount example_doc)) as [H _].
  exact (H "build"%string (ResourceCard (Some "build"%string) 1200) eq_refl).
Defined.

(** The example page has the four sections of the navigation: after a
    scroll and a click, one item is highlighted. *)
Lemma one_nav_item_highlighted_witness :
  let st := run example_doc example_labels [Scroll 700; Click 3] in
  Forall (fun s => exists id, In id NAV_IDS /\ id_attr s = Some id)
         (querySelectorAll_div_data_section example_doc)
  /\ reachable example_doc example_labels st
  /\ one_item_highlighted example_doc example_labels st.
Proof.
  cbv zeta.
  assert (Forall (fun s => exists id, In id NAV_IDS /\ id_attr s = Some id)
            (querySelectorAll_div_data_section example_doc)) as Hsec.
  { repeat (constructor;
            [eexists; split; [|reflexivity]; cbn; tauto|]).
    constructor. }
  split; [exact Hsec|]. split; [apply reachable_run|].
  apply (one_nav_item_highlighted example_doc example_labels Hsec).
  apply reachable_run.
Defined.

(** The mounted example page has one scroll listener. *)
Lemma effect_keeps_one_scroll_listener_witness :
  let st := mount example_doc in
  reachable example_doc example_labels st
  /\ length (scroll_listeners st) = 1%nat
  /\ scroll_listeners (run_cleanup st) = []
  /\ length (scroll_listeners (commit example_doc st)) = 1%nat.
Proof.
  cbv zeta. split; [constructor|].
  destruct (effect_keeps_one_scroll_listener
              example_doc example_labels (mount example_doc)
              (reachable_mount _ _)) as ((h & Hl & _) & Hc & Hn & _).
  split; [by rewrite Hl|]. split; [exact Hc|exact Hn].
Defined.

(** The effect, run in the state of the first render. *)
Lemma effect_defaults_to_get_involved_witness :
  activeId initial = Some ""%string
  /\ activeId (useEffect_body example_doc initial)
     = Some "get-involved"%string.
Proof.
  split; [reflexivity|].
  destruct (effect_defaults_to_get_involved example_doc example_labels)
    as [H _].
  exact (H initial eq_refl).
Defined.

(** With only globe and discord among the icons: figma falls back to
    globe, an omitted prop gives globe, and discord is found. *)
Lemma ResourceItem_icon_fallback_witness :
  example_icons !! "figma"%string = None
  /\ ~ In "figma"%string Object_prototype_members
  /\ ResourceItem_Icon example_icons (Some "figma"%string)
     = Some (Component 0%nat)
  /\ ResourceItem_Icon example_icons None = Some (Component 0%nat)
  /\ example_icons !! "discord"%string = Some 1%nat
  /\ ResourceItem_Icon example_icons (Some "discord"%string)
     = Some (Component 1%nat).
Proof.
  assert (example_icons !! "figma"%string = None) as Hf
    by (vm_compute; reflexivity).
  assert (~ In "figma"%string Object_prototype_members) as Hn.
  { intros H. apply inherited_iff in H. vm_compute in H. discriminate H. }
  assert (example_icons !! "discord"%string = Some 1%nat) as Hd
    by (vm_compute; reflexivity).
  assert (Icons_get example_icons "globe"%string = Some (Component 0%nat))
    as Hg by (vm_compute; reflexivity).
  split; [exact Hf|]. split; [exact Hn|].
  split.
  { rewrite <- Hg.
    apply (ResourceItem_icon_fallback example_icons (Some "figma"%string)).
    right. exists "figma"%string. split; [reflexivity|]. split; assumption. }
  split.
  { rewrite <- Hg.
    apply (ResourceItem_icon_fallback example_icons None).
    left. reflexivity. }
  split; [exact Hd|].
  destruct (ResourceItem_icon_fallback example_icons (Some "discord"%string))
    as [_ H].
  exact (H "discord"%string 1%nat eq_refl Hd).
Defined.

(** The example page has no element with the id faq. *)
Lemma scrollToId_missing_target_witness :
  let st := mount example_doc in
  getElementById example_doc "faq" = None
  /\ activeId (scrollToId example_doc "faq" st) = activeId st
  /\ isManualScroll (scrollToId example_doc "faq" st) = false
  /\ scrollTo_calls (scrollToId example_doc "faq" st) = []
  /\ timers (scrollToId example_doc "faq" st) = [mkTimer false 800].
Proof.
  cbv zeta. split; [reflexivity|].
  destruct (scrollToId_missing_target example_doc example_labels
              (mount example_doc) "faq"%string eq_refl)
    as (Ha & Hm & Hc & _ & _ & Ht & _).
  split; [exact Ha|]. split; [exact Hm|]. split; [exact Hc|exact Ht].
Defined.

(** * Further properties of the navigation *)

Section ScrollSpyMore.
Variable doc : Document.
Variable LABELS : NavLabels.

#[local] Arguments flush _ _ _ : simpl never.

Local Abbreviation sections := (querySelectorAll_div_data_section doc).
Local Abbreviation reachable := (reachable doc LABELS).
Local Abbreviation step := (step doc LABELS).
Local Abbreviation render := (render doc LABELS).
Local Abbreviation scrollToId := (scrollToId doc).
Local Abbreviation flush := (flush doc).
Local Abbreviation commit := (commit doc).

(** *** One event and its re-render *)

(** The active id after a scroll event with manual-scroll mode off. *)
Lemma scroll_step_activeId st y :
  Inv doc st -> isManualScroll st = false ->
  activeId (step st (Scroll y)) =
    match last (List.filter (section_hit y) sections) with
    | Some s =>
        if truthy (id_attr s) then id_attr s else Some "get-involved"%string
    | None => activeId st
    end.
Proof.
  intros HI Hm. rewrite step_eq, (dispatch_scroll_eq doc _ _ HI), Hm.
  destruct (last _) as [s|]; [|rewrite flush_settled; [done|apply HI]].
  destruct (truthy (id_attr s)) eqn:Ht.
  - by rewrite flush_activeId.
  - unfold NESTED_UPDATE_LIMIT. rewrite flush_S.
    destruct (decide _) as [E|E].
    + exfalso. destruct HI as [_ (Hd & Ha & _)].
      change (effect_deps st = Some (id_attr s, isManualScroll st)) in E.
      rewrite Hd in E. injection E as E. rewrite E in Ha. congruence.
    + rewrite flush_activeId by apply commit_truthy.
      rewrite commit_activeId.
      change (activeId (setActiveId (id_attr s) (set_scrollY y st)))
        with (id_attr s).
      by rewrite Ht.
Qed.

(** A timeout that fires. *)
Lemma timer_step st t ts :
  Inv doc st -> timers st = t :: ts ->
  isManualScroll (step st TimerFired) = false
  /\ activeId (step st TimerFired) = activeId st
  /\ timers (step st TimerFired) = ts
  /\ scrollTo_calls (step st TimerFired) = scrollTo_calls st
  /\ scrollY (step st TimerFired) = scrollY st.
Proof.
  intros HI Ht. rewrite step_eq.
  destruct (flush_untouched doc NESTED_UPDATE_LIMIT (dispatch_timer st))
    as (-> & -> & -> & ->).
  assert (t = mkTimer false 800) as ->.
  { destruct HI as [(_ & _ & _ & HF) _]. rewrite Ht in HF.
    by inversion HF. }
  rewrite flush_activeId; unfold dispatch_timer; rewrite Ht; [done|].
  apply HI.
Qed.

(** A click on a navigation item whose element exists. *)
Lemma click_step_found st i item e :
  render st !! i = Some item ->
  getElementById doc (data_id item) = Some e ->
  activeId (step st (Click i)) = Some (data_id item)
  /\ isManualScroll (step st (Click i)) = true
  /\ timers (step st (Click i)) = timers st ++ [mkTimer false 800].
Proof.
  intros Hi He. rewrite step_eq. unfold dispatch_click. rewrite Hi.
  destruct (flush_untouched doc NESTED_UPDATE_LIMIT (onClick item st))
    as (-> & -> & _).
  apply render_lookup in Hi as (_ & _ & _ & ->).
  rewrite flush_activeId; rewrite (scrollToId_found doc _ e) by done;
    [done|].
  apply truthy_Some. by apply getElementById_Some in He as (_ & _ & ?).
Qed.

Lemma not_scrolled_past_hit y s : ~ scrolled_past y s -> section_hit y s = false.
Proof.
  intros H. destruct (section_hit y s) eqn:E; [|done].
  apply section_hit_true in E as [E _]. done.
Qed.

Lemma not_positive_hit y s : (y <= 0)%Q -> section_hit y s = false.
Proof.
  intros H. destruct (section_hit y s) eqn:E; [|done].
  apply section_hit_true in E as [_ E]. by apply Qle_not_lt in H.
Qed.

(** Below a section that is not passed, in a list laid out top to
    bottom, no section is passed. *)
Lemma sorted_none_passed y n l :
  StronglySorted (fun a b => offsetTop a <= offsetTop b) (n :: l) ->
  ~ scrolled_past y n ->
  forall s', In s' (n :: l) -> ~ scrolled_past y s'.
Proof.
  intros Hs Hn s' [<-|Hin]; [done|].
  apply StronglySorted_inv in Hs as [_ Hall].
  rewrite List.Forall_forall in Hall. specialize (Hall s' Hin).
  intros Hp. apply Hn. unfold scrolled_past in *.
  eapply Qle_trans; [|exact Hp]. rewrite <- Zle_Qle. lia.
Qed.

(** *** Click and scroll together *)

(** X1. The target of a click and the test of the scroll handler agree.
    On a page where the sections after the clicked one lie strictly
    below it, a click on a navigation item, then the timeout, then the
    scroll event at the requested position [offsetTop - 80] leave the
    clicked item active: the handler selects that same section, or does
    nothing when the position is not positive. *)
Theorem arriving_at_click_target_keeps_item st i item e l1 l2 :
  reachable st ->
  render st !! i = Some item ->
  getElementById doc (data_id item) = Some e ->
  sections = l1 ++ e :: l2 ->
  (forall s', In s' l2 -> offsetTop e < offsetTop s') ->
  let st1 := step st (Click i) in
  let st2 := step st1 TimerFired in
  let st3 := step st2 (Scroll (inject_Z (offsetTop e - SCROLL_OFFSET))) in
  activeId st1 = Some (data_id item)
  /\ isManualScroll st2 = false
  /\ activeId st3 = Some (data_id item).
Proof.
  intros Hr Hi He Hsec Hbelow. cbv zeta.
  destruct (click_step_found st i item e Hi He) as (Ha1 & _ & Ht1).
  assert (Inv doc (step st (Click i))) as HI1
    by (apply (reachable_Inv doc LABELS); by constructor).
  assert (exists t ts, timers (step st (Click i)) = t :: ts)
    as (t & ts & Hts).
  { rewrite Ht1. destruct (timers st); cbn; eauto. }
  destruct (timer_step _ t ts HI1 Hts) as (Hm2 & Ha2 & _).
  assert (Inv doc (step (step st (Click i)) TimerFired)) as HI2
    by (apply (reachable_Inv doc LABELS); by do 2 constructor).
  split; [done|]. split; [done|].
  assert (id_attr e = Some (data_id item) /\ data_id item <> ""%string)
    as [Hid Hne] by (by apply getElementById_Some in He as (_ & ? & ?)).
  rewrite (scroll_step_activeId _ _ HI2 Hm2).
  destruct (Qlt_le_dec 0 (inject_Z (offsetTop e - SCROLL_OFFSET)))
    as [Hpos|Hneg].
  - rewrite Hsec, filter_hit_split.
    + by rewrite Hid, truthy_Some.
    + apply section_hit_true. split; [apply Qle_refl|done].
    + intros s' Hs'. apply not_scrolled_past_hit. unfold scrolled_past.
      rewrite <- Zle_Qle. specialize (Hbelow s' Hs'). lia.
  - rewrite filter_hit_none; [by rewrite Ha2|].
    intros s _. by apply not_positive_hit.
Qed.

(** X2. On a page laid out top to bottom, the section made active by a
    scroll event is the one whose band holds the position: it is passed
    and the section after it, if any, is not. When its id attribute is
    missing or empty the re-render makes get-involved active instead. *)
Theorem scroll_selects_band_of_position st y l1 s l2 :
  reachable st -> isManualScroll st = false -> (0 < y)%Q ->
  sections = l1 ++ s :: l2 ->
  StronglySorted (fun a b => offsetTop a <= offsetTop b) l2 ->
  scrolled_past y s ->
  (forall n, head l2 = Some n -> ~ scrolled_past y n) ->
  activeId (step st (Scroll y)) =
    if truthy (id_attr s) then id_attr s else Some "get-involved"%string.
Proof.
  intros Hr Hm Hy Hsec Hsort Hs Hnext. apply reachable_Inv in Hr.
  rewrite (scroll_step_activeId st y Hr Hm), Hsec, filter_hit_split; [done|..].
  - by apply section_hit_true.
  - intros s' Hs'. apply not_scrolled_past_hit.
    destruct l2 as [|n l2]; [done|].
    apply (sorted_none_passed y n l2); [done| |done]. by apply Hnext.
Qed.

(** X3. A section without an id, or with an empty one, never becomes
    the active id: when a scroll event selects it, the effect of the
    re-render sets the active id to get-involved. *)
Theorem section_without_id_activates_get_involved st y l1 s l2 :
  reachable st -> isManualScroll st = false -> (0 < y)%Q ->
  sections = l1 ++ s :: l2 ->
  scrolled_past y s ->
  (forall s', In s' l2 -> ~ scrolled_past y s') ->
  truthy (id_attr s) = false ->
  activeId (dispatch_scroll y st) = id_attr s
  /\ activeId (step st (Scroll y)) = Some "get-involved"%string.
Proof.
  intros Hr Hm Hy Hsec Hs Hl2 Hf. apply reachable_Inv in Hr.
  assert (last (List.filter (section_hit y) sections) = Some s) as Hlast.
  { rewrite Hsec. apply filter_hit_split; [by apply section_hit_true|].
    intros s' Hs'. by apply not_scrolled_past_hit, Hl2. }
  split.
  - by rewrite (dispatch_scroll_eq doc _ _ Hr), Hm, Hlast.
  - by rewrite (scroll_step_activeId st y Hr Hm), Hlast, Hf.
Qed.

(** X4. Between events the active id is a non-empty string, whatever
    the sections of the page are: it is so in every state of the mounted
    component once the re-render and the effect of the last event are
    committed. Of the event handlers only the scroll handler can leave a
    null or empty active id for the render that follows it, and the
    effect of that render sets the active id to get-involved. *)
Theorem active_id_nonempty_between_events st :
  reachable st ->
  effect_deps st = Some (activeId st, isManualScroll st)
  /\ (exists id, activeId st = Some id /\ id <> ""%string)
  /\ (forall i, truthy (activeId (dispatch_click doc LABELS i st)) = true)
  /\ truthy (activeId (dispatch_timer st)) = true
  /\ (forall y,
      truthy (activeId (dispatch_scroll y st)) = false ->
      activeId (step st (Scroll y)) = Some "get-involved"%string).
Proof.
  intros Hr. apply reachable_Inv in Hr as HI.
  destruct HI as [Hwf (Hd & Ht & Hrest)].
  assert (Inv doc st) as HI by (by split).
  split; [done|]. split; [|split; [|split]].
  - destruct (activeId st) as [id|]; [|done]. exists id. split; [done|].
    intros ->. done.
  - intros i. unfold dispatch_click.
    destruct (render st !! i) as [item|] eqn:E; [|done].
    apply render_lookup in E as (_ & _ & _ & ->).
    destruct (getElementById doc (data_id item)) as [e|] eqn:He.
    + rewrite (scrollToId_found doc _ e) by done. cbn [activeId].
      apply truthy_Some. by apply getElementById_Some in He as (_ & _ & ?).
    + by rewrite (scrollToId_missing doc) by done.
  - unfold dispatch_timer. by destruct (timers st).
  - intros y. destruct (isManualScroll st) eqn:Hm.
    + rewrite (dispatch_scroll_eq doc _ _ HI), Hm. cbn. congruence.
    + rewrite (scroll_step_activeId st y HI Hm).
      rewrite (dispatch_scroll_eq doc _ _ HI), Hm.
      destruct (last _) as [s|]; cbn; [by intros ->|congruence].
Qed.

(** X5. Manual-scroll mode cannot stay on for ever: whenever
    [isManualScroll] is true, a timeout that will reset it is pending. *)
Theorem manual_scroll_has_pending_timeout st :
  reachable st -> isManualScroll st = true ->
  exists ts, timers st = mkTimer false 800 :: ts.
Proof.
  intros Hr.
  assert (isManualScroll st = true -> timers st <> []) as Hne.
  { induction Hr as [|st ev Hr IH]; [done|].
    apply reachable_Inv in Hr as HI. rewrite step_eq.
    match goal with |- context [flush _ ?s] =>
      destruct (flush_untouched doc NESTED_UPDATE_LIMIT s) as (-> & -> & _)
    end.
    destruct ev as [y|i|].
    - rewrite (dispatch_scroll_eq doc _ _ HI).
      destruct (isManualScroll st) eqn:Em; [by intros _; apply IH|].
      destruct (last _); cbn; by rewrite Em.
    - unfold dispatch_click.
      destruct (render st !! i) as [item|] eqn:E; [|done].
      apply render_lookup in E as (_ & _ & _ & ->). intros _.
      unfold scrollToId.
      destruct (getElementById doc (data_id item)); cbn;
        intros H; apply app_eq_nil in H as [_ H]; discriminate.
    - unfold dispatch_timer. destruct (timers st) as [|t ts] eqn:Et;
        [intros Hm; apply IH in Hm; congruence|].
      destruct HI as [(_ & _ & _ & HF) _]. rewrite Et in HF.
      inversion HF; subst. done. }
  intros Hm. specialize (Hne Hm).
  apply reachable_Inv in Hr as [(_ & _ & _ & HF) _].
  destruct (timers st) as [|t ts]; [done|].
  inversion HF; subst. by exists ts.
Qed.

(** X6. A timeout is never cancelled, so the timeout of an earlier click
    ends the manual-scroll mode of a later one: with a timeout pending,
    a click on an item whose element exists followed by the next timeout
    leaves [isManualScroll] false, the clicked id active, and the
    timeout of that click still pending. *)
Theorem earlier_timeout_ends_manual_scroll st t ts i item e :
  reachable st ->
  timers st = t :: ts ->
  render st !! i = Some item ->
  getElementById doc (data_id item) = Some e ->
  let st2 := step (step st (Click i)) TimerFired in
  isManualScroll (step st (Click i)) = true
  /\ isManualScroll st2 = false
  /\ activeId st2 = Some (data_id item)
  /\ timers st2 = ts ++ [mkTimer false 800].
Proof.
  intros Hr Ht Hi He. cbv zeta.
  destruct (click_step_found st i item e Hi He) as (Ha1 & Hm1 & Ht1).
  assert (Inv doc (step st (Click i))) as HI1
    by (apply (reachable_Inv doc LABELS); by constructor).
  rewrite Ht in Ht1.
  destruct (timer_step _ t (ts ++ [mkTimer false 800]) HI1 Ht1)
    as (Hm2 & Ha2 & Ht2 & _).
  by rewrite Hm2, Ha2, Ht2.
Qed.

(** *** Rendering *)

(** X7. Whatever the state, at most one navigation item is rendered
    active, and one is exactly when the active id is one of the four ids
    of the navigation. *)
Theorem at_most_one_nav_item_active st :
  (length (List.filter active (render st)) <= 1)%nat
  /\ (length (List.filter active (render st)) = 1%nat <->
      exists id, In id NAV_IDS /\ activeId st = Some id).
Proof.
  unfold render, ID_LABELS_MAPPING, NAV_IDS.
  cbn [map List.filter active].
  destruct (activeId st) as [a|].
  - repeat case_bool_decide; simplify_eq; cbn; (split; [lia|]); split.
    all: first
      [ done
      | intros _; eexists; split; [|reflexivity]; cbn; tauto
      | intros (id & Hin & Heq); simplify_eq; cbn in Hin;
        destruct Hin as [|[|[|[|[]]]]]; congruence ].
  - repeat case_bool_decide; simplify_eq; cbn.
    split; [lia|]. split; [done|]. by intros (? & _ & ?).
Qed.

(** *** Effects *)

(** X8. The state update made by the effect cannot start a render loop:
    from any state, two runs of the effect reach a state for which the
    effect has run, and so does the re-render loop with any budget of
    two or more, which then has nothing left to do. *)
Theorem effect_settles_in_two_runs st n :
  effect_deps (commit (commit st)) = Some (deps (commit (commit st)))
  /\ effect_deps (flush (S (S n)) st) = Some (deps (flush (S (S n)) st))
  /\ forall m, flush m (flush (S (S n)) st) = flush (S (S n)) st.
Proof.
  assert (effect_deps (commit (commit st))
          = Some (deps (commit (commit st)))) as H2.
  { destruct (commit_untouched doc (commit st)) as (Hm & _ & _ & _ & ->).
    unfold deps.
    by rewrite Hm, (commit_activeId doc (commit st)), commit_truthy. }
  assert (effect_deps (flush (S (S n)) st)
          = Some (deps (flush (S (S n)) st))) as Hf.
  { rewrite flush_S. destruct (decide _) as [E|E]; [done|].
    rewrite flush_S. destruct (decide _) as [E1|E1]; [done|].
    by rewrite flush_settled. }
  split; [done|]. split; [done|]. intros m. by apply flush_settled.
Qed.

(** X9. The dependency array covers what [handleScroll] reads: in every
    state of the mounted component the effect has run for the current
    [activeId] and [isManualScroll], the one registered listener holds
    the current [isManualScroll], and the sections it walks are the
    [div[data-section]] elements of the document. *)
Theorem listener_sees_current_state st :
  reachable st ->
  effect_deps st = Some (activeId st, isManualScroll st)
  /\ sectionsRef st = Some sections
  /\ exists h, scroll_listeners st = [h]
             /\ closure_isManualScroll h = isManualScroll st
             /\ forall y, dispatch_scroll y st = handleScroll h (set_scrollY y st).
Proof.
  intros Hr.
  apply reachable_Inv in Hr as [(Hl & _) (Hd & _ & Hs & h & Hc & Hm)].
  rewrite Hc in Hl. split; [done|]. split; [done|].
  exists h. split; [done|]. split; [done|].
  intros y. unfold dispatch_scroll. by rewrite Hl.
Qed.

(** *** What an event leaves alone *)

(** X10. A scroll event only moves the position and, at most, the
    active id: it schedules no timeout, requests no scrolling and leaves
    [isManualScroll]. A click on a navigation item never moves the
    position by itself and schedules one timeout, whether its element
    exists or not. A timeout that fires leaves the active id, the
    position and the scroll requests, and takes the oldest timeout off
    the queue. *)
Theorem events_leave_the_rest_alone st :
  reachable st ->
  (forall y,
      scrollY (step st (Scroll y)) = y
      /\ isManualScroll (step st (Scroll y)) = isManualScroll st
      /\ timers (step st (Scroll y)) = timers st
      /\ scrollTo_calls (step st (Scroll y)) = scrollTo_calls st)
  /\ (forall i item,
      render st !! i = Some item ->
      scrollY (step st (Click i)) = scrollY st
      /\ timers (step st (Click i)) = timers st ++ [mkTimer false 800])
  /\ (activeId (step st TimerFired) = activeId st
      /\ scrollY (step st TimerFired) = scrollY st
      /\ scrollTo_calls (step st TimerFired) = scrollTo_calls st
      /\ timers (step st TimerFired) = tail (timers st)).
Proof.
  intros Hr. apply reachable_Inv in Hr as HI.
  split; [|split].
  - intros y. rewrite step_eq.
    destruct (flush_untouched doc NESTED_UPDATE_LIMIT (dispatch_scroll y st))
      as (-> & -> & -> & ->).
    rewrite (dispatch_scroll_eq doc _ _ HI).
    destruct (isManualScroll st) eqn:Em; [done|].
    destruct (last _); cbn; by rewrite ?Em.
  - intros i item Hi. rewrite step_eq.
    destruct (flush_untouched doc NESTED_UPDATE_LIMIT
                (dispatch_click doc LABELS i st)) as (_ & -> & -> & _).
    unfold dispatch_click. rewrite Hi.
    apply render_lookup in Hi as (_ & _ & _ & ->). unfold scrollToId.
    by destruct (getElementById doc (data_id item)).
  - destruct (timers st) as [|t ts] eqn:Et.
    + rewrite step_eq. unfold dispatch_timer. rewrite Et.
      rewrite flush_settled by apply HI. by rewrite Et.
    + destruct (timer_step st t ts HI Et) as (_ & -> & -> & -> & ->). done.
Qed.

(** X11. At the top of the page, and above it while the page is pulled
    down, a scroll event changes nothing but the recorded position: the
    section that was active stays active, and nothing is rendered
    again. *)
Theorem scroll_at_top_keeps_state st y :
  reachable st -> (y <= 0)%Q -> step st (Scroll y) = set_scrollY y st.
Proof.
  intros Hr Hy. apply reachable_Inv in Hr as HI.
  rewrite step_eq, (dispatch_scroll_eq doc _ _ HI).
  rewrite filter_hit_none by (intros s _; by apply not_positive_hit).
  cbn. destruct (isManualScroll st); apply flush_settled, HI.
Qed.

End ScrollSpyMore.

(** ** Resource cards *)

(** X13. On a page made of resource cards, the sections that the scroll
    handler walks are the cards that were given an id, in the order of
    the page, and the id attribute of each is the id it was given: a
    card without an id is not tracked. *)
Theorem sections_of_resource_cards (cards : list (js_string * Z)) :
  let page := map (fun '(id, top) => ResourceCard id top) cards in
  querySelectorAll_div_data_section page
  = map (fun '(id, top) => ResourceCard id top)
        (List.filter (fun '(id, _) => bool_decide (is_Some id)) cards)
  /\ Forall (fun s => is_Some (id_attr s) /\ id_attr s = data_section s)
            (querySelectorAll_div_data_section page).
Proof.
  cbv zeta.
  assert (querySelectorAll_div_data_section
            (map (fun '(id, top) => ResourceCard id top) cards)
          = map (fun '(id, top) => ResourceCard id top)
              (List.filter (fun '(id, _) => bool_decide (is_Some id)) cards))
    as Heq.
  { unfold querySelectorAll_div_data_section.
    induction cards as [|[id top] cards IH]; [done|].
    cbn [map List.filter]. rewrite IH.
    unfold matches_div_data_section at 1. cbn.
    by destruct (bool_decide (is_Some id)). }
  split; [done|]. rewrite Heq. apply Forall_forall.
  intros s Hs. apply list_elem_of_In, in_map_iff in Hs as [[id top] [<- Hin]].
  apply filter_In in Hin as [_ Hid]. apply bool_decide_eq_true in Hid.
  by cbn.
Qed.

(** ** The icon of a resource item, again *)


(** ** The further properties on the example pages *)

(** A click on build, the timeout, and the arrival at 1120. *)
Lemma arriving_at_click_target_keeps_item_witness :
  let st1 := step example_doc example_labels (mount example_doc) (Click 2) in
  let st2 := step example_doc example_labels st1 TimerFired in
  let st3 := step example_doc example_labels st2 (Scroll 1120) in
  reachable example_doc example_labels (mount example_doc)
  /\ getElementById example_doc "build"
     = Some (ResourceCard (Some "build"%string) 1200)
  /\ activeId st1 = Some "build"%string
  /\ isManualScroll st2 = false
  /\ activeId st3 = Some "build"%string.
Proof.
  cbv zeta. split; [constructor|]. split; [reflexivity|].
  apply (arriving_at_click_target_keeps_item
           example_doc example_labels (mount example_doc) 2
           (mkNavItem "build" (scrollToId example_doc "build") "build" false
              "Build")
           (ResourceCard (Some "build"%string) 1200)
           [ResourceCard (Some "get-involved"%string) 100;
            ResourceCard (Some "learn"%string) 600]
           [ResourceCard (Some "design"%string) 1800]).
  - constructor.
  - reflexivity.
  - reflexivity.
  - reflexivity.
  - intros s' [<-|[]]. cbn. lia.
Defined.

(** At 700 the example page is in the band of learn. *)
Lemma scroll_selects_band_of_position_witness :
  let st := mount example_doc in
  reachable example_doc example_labels st
  /\ isManualScroll st = false
  /\ activeId (step example_doc example_labels st (Scroll 700))
     = Some "learn"%string.
Proof.
  cbv zeta. split; [constructor|]. split; [reflexivity|].
  apply (scroll_selects_band_of_position
           example_doc example_labels (mount example_doc) 700%Q
           [ResourceCard (Some "get-involved"%string) 100]
           (ResourceCard (Some "learn"%string) 600)
           [ResourceCard (Some "build"%string) 1200;
            ResourceCard (Some "design"%string) 1800]).
  - constructor.
  - reflexivity.
  - reflexivity.
  - reflexivity.
  - repeat constructor. cbn. lia.
  - unfold scrolled_past, Qle, SCROLL_OFFSET. cbn. lia.
  - intros n [= <-]. unfold scrolled_past, Qle, SCROLL_OFFSET. cbn. lia.
Defined.

(** With learn active, scrolling past the section without an id makes
    get-involved active. *)
Lemma section_without_id_activates_get_involved_witness :
  let st := run doc_with_anonymous example_labels [Scroll 700] in
  reachable doc_with_anonymous example_labels st
  /\ activeId st = Some "learn"%string
  /\ activeId (dispatch_scroll 1300 st) = None
  /\ activeId (step doc_with_anonymous example_labels st (Scroll 1300))
     = Some "get-involved"%string.
Proof.
  cbv zeta.
  assert (reachable doc_with_anonymous example_labels
            (run doc_with_anonymous example_labels [Scroll 700])) as Hr
    by apply reachable_run.
  split; [exact Hr|]. split; [vm_compute; reflexivity|].
  apply (section_without_id_activates_get_involved
           doc_with_anonymous example_labels _ 1300%Q
           [ResourceCard (Some "get-involved"%string) 100;
            ResourceCard (Some "learn"%string) 600]
           (mkElement "div" None (Some "notes"%string) 1200) [] Hr).
  - vm_compute. reflexivity.
  - reflexivity.
  - reflexivity.
  - unfold scrolled_past, Qle, SCROLL_OFFSET. cbn. lia.
  - intros s' [].
  - reflexivity.
Defined.

(** With learn active on the page whose last section has no id: the
    scroll handler leaves a null active id, and the effect repairs it. *)
Lemma active_id_nonempty_between_events_witness :
  let st := run doc_with_anonymous example_labels [Scroll 700] in
  reachable doc_with_anonymous example_labels st
  /\ (exists id, activeId st = Some id /\ id <> ""%string)
  /\ truthy (activeId (dispatch_scroll 1300 st)) = false
  /\ activeId (step doc_with_anonymous example_labels st (Scroll 1300))
     = Some "get-involved"%string.
Proof.
  cbv zeta.
  assert (reachable doc_with_anonymous example_labels
            (run doc_with_anonymous example_labels [Scroll 700]))
    as Hr by apply reachable_run.
  assert (truthy (activeId
            (dispatch_scroll 1300
               (run doc_with_anonymous example_labels [Scroll 700])))
          = false) as Hf by (vm_compute; reflexivity).
  destruct (active_id_nonempty_between_events
              doc_with_anonymous example_labels _ Hr)
    as (_ & Hid & _ & _ & Hs).
  split; [exact Hr|]. split; [exact Hid|]. split; [exact Hf|].
  exact (Hs 1300%Q Hf).
Defined.

Lemma manual_scroll_has_pending_timeout_witness :
  let st := run example_doc example_labels [Click 2] in
  reachable example_doc example_labels st
  /\ isManualScroll st = true
  /\ exists ts, timers st = mkTimer false 800 :: ts.
Proof.
  cbv zeta.
  assert (reachable example_doc example_labels
            (run example_doc example_labels [Click 2])) as Hr
    by apply reachable_run.
  assert (isManualScroll (run example_doc example_labels [Click 2]) = true)
    as Hm by (vm_compute; reflexivity).
  split; [exact Hr|]. split; [exact Hm|].
  exact (manual_scroll_has_pending_timeout
           example_doc example_labels _ Hr Hm).
Defined.

(** Learn is clicked, then build; the timeout of the first click ends
    the manual-scroll mode of the second. *)
Lemma earlier_timeout_ends_manual_scroll_witness :
  let st := run example_doc example_labels [Click 1] in
  let st2 := step example_doc example_labels
               (step example_doc example_labels st (Click 2)) TimerFired in
  reachable example_doc example_labels st
  /\ timers st = [mkTimer false 800]
  /\ isManualScroll st2 = false
  /\ activeId st2 = Some "build"%string
  /\ timers st2 = [mkTimer false 800].
Proof.
  cbv zeta.
  assert (reachable example_doc example_labels
            (run example_doc example_labels [Click 1])) as Hr
    by apply reachable_run.
  assert (timers (run example_doc example_labels [Click 1])
          = [mkTimer false 800]) as Ht by (vm_compute; reflexivity).
  split; [exact Hr|]. split; [exact Ht|].
  destruct (earlier_timeout_ends_manual_scroll
              example_doc example_labels _ (mkTimer false 800) [] 2
              (mkNavItem "build" (scrollToId example_doc "build") "build"
                 false "Build")
              (ResourceCard (Some "build"%string) 1200) Hr Ht)
    as (_ & Hm & Ha & Hts).
  - vm_compute. reflexivity.
  - reflexivity.
  - split; [exact Hm|]. split; [exact Ha|exact Hts].
Defined.

Lemma at_most_one_nav_item_active_witness :
  let st := mount example_doc in
  (exists id, In id NAV_IDS /\ activeId st = Some id)
  /\ length (List.filter active (render example_doc example_labels st))
     = 1%nat.
Proof.
  cbv zeta.
  assert (exists id, In id NAV_IDS
                     /\ activeId (mount example_doc) = Some id) as H.
  { exists "get-involved"%string. split; [left|]; reflexivity. }
  split; [exact H|].
  destruct (at_most_one_nav_item_active
              example_doc example_labels (mount example_doc)) as [_ [_ Hiff]].
  exact (Hiff H).
Defined.

Lemma listener_sees_current_state_witness :
  let st := run example_doc example_labels [Click 2] in
  reachable example_doc example_labels st
  /\ effect_deps st = Some (Some "build"%string, true)
  /\ exists h, scroll_listeners st = [h]
               /\ closure_isManualScroll h = isManualScroll st.
Proof.
  cbv zeta.
  assert (reachable example_doc example_labels
            (run example_doc example_labels [Click 2])) as Hr
    by apply reachable_run.
  split; [exact Hr|].
  destruct (listener_sees_current_state example_doc example_labels _ Hr)
    as (Hd & _ & h & Hl & Hm & _).
  split; [exact Hd|]. exists h. split; [exact Hl|exact Hm].
Defined.

Lemma events_leave_the_rest_alone_witness :
  let st := mount example_doc in
  reachable example_doc example_labels st
  /\ scrollY (step example_doc example_labels st (Scroll 700)) = 700%Q
  /\ timers (step example_doc example_labels st (Scroll 700)) = []
  /\ timers (step example_doc example_labels st (Click 0))
     = [mkTimer false 800].
Proof.
  cbv zeta. split; [constructor|].
  destruct (events_leave_the_rest_alone
              example_doc example_labels (mount example_doc)
              (reachable_mount _ _)) as (Hs & Hc & _).
  destruct (Hs 700%Q) as (Hy & _ & Ht & _).
  destruct (Hc 0%nat
              (mkNavItem "get-involved"
                 (scrollToId example_doc "get-involved") "get-involved"
                 true "Get involved") eq_refl) as (_ & H0).
  split; [exact Hy|]. split; [exact Ht|exact H0].
Defined.

(** Back at the top after learn became active: learn stays active. *)
Lemma scroll_at_top_keeps_state_witness :
  let st := run example_doc example_labels [Scroll 700] in
  reachable example_doc example_labels st
  /\ (0 <= 0)%Q
  /\ step example_doc example_labels st (Scroll 0) = set_scrollY 0 st
  /\ activeId (step example_doc example_labels st (Scroll 0))
     = Some "learn"%string.
Proof.
  cbv zeta.
  assert (reachable example_doc example_labels
            (run example_doc example_labels [Scroll 700])) as Hr
    by apply reachable_run.
  assert ((0 <= 0)%Q) as H0 by apply Qle_refl.
  split; [exact Hr|]. split; [exact H0|].
  rewrite (scroll_at_top_keeps_state example_doc example_labels _ 0%Q Hr H0).
  split; [reflexivity|]. vm_compute. reflexivity.
Defined.

